(** * Legacy TMS login: the auth domain (router, service, repository, schemas)

    A shallow embedding of [server/app/domain/auth] and the properties of
    its login flow: request validation, the raw-SQL user lookup, the
    plaintext password comparison, the temporary token, the result
    envelope and the mapping of failures to HTTP status codes. *)

From Stdlib Require Import String Ascii NArith ZArith List Bool Lia.
From Stdlib.Strings Require Import Byte.
Import ListNotations.

Local Open Scope N_scope.

(** ** Python strings

    A Python [str] is a sequence of Unicode code points.  Literals of the
    source are written as UTF-8 text and decoded by [py]. *)

Definition str := list N.

Fixpoint utf8_decode (need : nat) (acc : N) (bs : list N) : str :=
  match bs with
  | [] => []
  | b :: rest =>
      match need with
      | S k =>
          let acc' := acc * 64 + b mod 64 in
          match k with
          | O => acc' :: utf8_decode O 0 rest
          | S _ => utf8_decode k acc' rest
          end
      | O =>
          if b <? 128 then b :: utf8_decode O 0 rest
          else if b <? 224 then utf8_decode 1 (b mod 32) rest
          else if b <? 240 then utf8_decode 2 (b mod 16) rest
          else utf8_decode 3 (b mod 8) rest
      end
  end.

Definition py (s : string) : str :=
  utf8_decode O 0 (map N_of_ascii (list_ascii_of_string s)).

(** [a == b] on strings. *)
Fixpoint str_eqb (a b : str) : bool :=
  match a, b with
  | [], [] => true
  | x :: a', y :: b' => (x =? y) && str_eqb a' b'
  | _, _ => false
  end.

(** [s.startswith(p)] *)
Fixpoint startswith (p s : str) : bool :=
  match p, s with
  | [], _ => true
  | x :: p', y :: s' => (x =? y) && startswith p' s'
  | _ :: _, [] => false
  end.

(** [needle in hay]: substring test. *)
Fixpoint contains (needle hay : str) : bool :=
  startswith needle hay ||
  match hay with
  | [] => false
  | _ :: hay' => contains needle hay'
  end.

(** The code points [str.isspace] accepts (CPython's
    [_PyUnicode_IsWhitespace]); these are what [str.strip()] removes. *)
Definition isspace (c : N) : bool :=
  ((9 <=? c) && (c <=? 13)) || ((28 <=? c) && (c <=? 32))
  || (c =? 133) || (c =? 160) || (c =? 5760)
  || ((8192 <=? c) && (c <=? 8202))
  || (c =? 8232) || (c =? 8233) || (c =? 8239) || (c =? 8287)
  || (c =? 12288).

Fixpoint lstrip (s : str) : str :=
  match s with
  | [] => []
  | c :: s' => if isspace c then lstrip s' else s
  end.

Definition rstrip (s : str) : str := rev (lstrip (rev s)).

(** [s.strip()] *)
Definition strip (s : str) : str := rstrip (lstrip s).

(** Truthiness of a string: non-empty. *)
Definition truthy (s : str) : bool :=
  match s with [] => false | _ :: _ => true end.

(** [bytes.rstrip(b"=")] specialised to one stripped character. *)
Fixpoint lstrip_char (c : N) (s : str) : str :=
  match s with
  | [] => []
  | x :: s' => if x =? c then lstrip_char c s' else s
  end.

Definition rstrip_char (c : N) (s : str) : str :=
  rev (lstrip_char c (rev s)).

(** ** Exceptions

    The two application exceptions of [server.app.shared.exceptions], the
    [HTTPException] of the web framework, and [OtherError] for an
    exception of any other class (a database driver error, pydantic's
    [ValidationError]), kept with its class name and text. *)
Inductive Exception : Type :=
| ValidationException (message : str)
| NotFoundException (message : str)
| HTTPException (status_code : N) (detail : str)
| OtherError (class_name : str) (text : str).

(** [type(error).__name__] *)
Definition type_name (e : Exception) : str :=
  match e with
  | ValidationException _ => py "ValidationException"
  | NotFoundException _ => py "NotFoundException"
  | HTTPException _ _ => py "HTTPException"
  | OtherError n _ => n
  end.

(** Modelled from the spec: [server.app.shared.exceptions] is not part of
    the sources at hand.  The specification has the validation and
    not-found kinds "retain their specific message text", so [str(error)]
    of an application exception is the message it was raised with. *)
Definition exception_message (m : str) : str := m.

(** ** Values of database columns

    What the driver hands back for one column of a row: text, [NULL]
    (Python's [None]), or a value of another Python type (a number, a
    date), kept with the name of its type. *)
Inductive Cell : Type :=
| Text (s : str)
| Null
| NotText (python_type : str).

Definition is_text (c : Cell) : bool :=
  match c with Text _ => true | _ => false end.

(** ** Schemas ([schemas/__init__.py]) *)

Module LoginRequest.
Record t : Type := Build { username : str; password : str }.

(** The field constraints pydantic enforces when the request object is
    built: [min_length=1], [max_length=100] and [max_length=200]. *)
Definition well_formed (r : t) : bool :=
  (1 <=? N.of_nat (length (username r)))
  && (N.of_nat (length (username r)) <=? 100)
  && (1 <=? N.of_nat (length (password r)))
  && (N.of_nat (length (password r)) <=? 200).
End LoginRequest.

Module LoginResponse.
Record t : Type :=
  Build { user_id : str; user_name : str; token : str; message : str }.
End LoginResponse.

Module UserRecord.
Record t : Type :=
  Build { user_id : str; password : str; user_name : str }.

(** The first line of pydantic's report for [n] refused fields. *)
Definition report (n : nat) : str :=
  match n with
  | 1%nat => py "1 validation error for UserRecord"
  | 2%nat => py "2 validation errors for UserRecord"
  | _ => py "3 validation errors for UserRecord"
  end.

(** [UserRecord(user_id=..., password=..., user_name=...)]: the three
    fields are declared [str]; pydantic builds the record when all three
    values are text and raises its [ValidationError] otherwise. *)
Definition create (user_id password user_name : Cell) : Exception + t :=
  match user_id, password, user_name with
  | Text i, Text p, Text n => inr (Build i p n)
  | _, _, _ =>
      inl (OtherError (py "ValidationError")
             (report (length (filter (fun c => negb (is_text c))
                                [user_id; password; user_name]))))
  end.
End UserRecord.

(** ** The result envelope *)

Module ServiceResult.
(** Modelled from the spec: [server.app.shared.types.ServiceResult] is not
    part of the sources at hand.  The specification describes the
    envelope as tagged success/failure, carrying either a payload or an
    error message, plus free-form metadata. *)
Record t (T : Type) : Type :=
  Build { success : bool;
          data : option T;
          error : option str;
          metadata : list (str * str) }.
Arguments Build {T}.
Arguments success {T}.
Arguments data {T}.
Arguments error {T}.
Arguments metadata {T}.

(** Modelled from the spec: [ServiceResult.ok(data, metadata=...)], the
    success form of the envelope: tagged success, the payload set, no
    error message. *)
Definition ok {T} (payload : T) (md : list (str * str)) : t T :=
  Build true (Some payload) None md.

(** Modelled from the spec: [ServiceResult.fail(error, metadata=...)], the
    failure form of the envelope: tagged failure, the error message set,
    no payload. *)
Definition fail {T} (msg : str) (md : list (str * str)) : t T :=
  Build false None (Some msg) md.
End ServiceResult.

(** ** The world a request runs in

    [entropy] is the operating system's random source as an endless tape
    of bytes; [db_calls] records, in order, the parameter of every
    statement sent to the database session. *)
Record World : Type :=
  mkWorld { entropy : nat -> byte; db_calls : list str }.

(** Computations that read and change the world and may raise. *)
Definition M (A : Type) : Type := World -> (Exception + A) * World.

Definition ret {A} (a : A) : M A := fun w => (inr a, w).

Definition raise {A} (e : Exception) : M A := fun w => (inl e, w).

(** A step that touches nothing in the world: its value, or its exception
    raised. *)
Definition lift {A} (r : Exception + A) : M A := fun w => (r, w).

Definition bind {A B} (m : M A) (f : A -> M B) : M B :=
  fun w =>
    match m w with
    | (inr a, w') => f a w'
    | (inl e, w') => (inl e, w')
    end.

(** [try: m  except Exception as e: handler e] *)
Definition try_except {A} (m : M A) (handler : Exception -> M A) : M A :=
  fun w =>
    match m w with
    | (inr a, w') => (inr a, w')
    | (inl e, w') => handler e w'
    end.

Declare Scope py_scope.
Delimit Scope py_scope with py.
Notation "x <- m ;; k" := (bind m (fun x => k))
  (at level 100, m at next level, right associativity) : py_scope.
Notation "m ;;; k" := (bind m (fun _ => k))
  (at level 100, right associativity) : py_scope.
Local Open Scope py_scope.

(** ** The database session

    [T_USER] as the list of its rows [(USER_ID, PASSWORD, USER_NAME)], in
    the order the database returns them; a session is either answering
    or failing every statement with a driver error. *)
Definition Row : Type := (Cell * Cell * Cell)%type.

Definition USER_ID (r : Row) : Cell := fst (fst r).
Definition PASSWORD (r : Row) : Cell := snd (fst r).
Definition USER_NAME (r : Row) : Cell := snd r.

(** [column = :parameter] for a text parameter.  The comparison is the
    database's; it is taken as equality of text, so a row whose column is
    [NULL] or not text is not selected. *)
Definition cell_equals (c : Cell) (parameter : str) : bool :=
  match c with
  | Text s => str_eqb s parameter
  | _ => false
  end.

Inductive AsyncSession : Type :=
| Online (T_USER : list Row)
| Broken (class_name : str) (text : str).

(** [SELECT USER_ID, PASSWORD, USER_NAME FROM T_USER WHERE USER_ID = :username] *)
Definition select_user (T_USER : list Row) (username : str) : list Row :=
  filter (fun r => cell_equals (USER_ID r) username) T_USER.

(** [await db.execute(query, {"username": username})] *)
Definition db_execute (db : AsyncSession) (username : str) : M (list Row) :=
  fun w =>
    let w' := mkWorld (entropy w) (db_calls w ++ [username]) in
    match db with
    | Online T_USER => (inr (select_user T_USER username), w')
    | Broken c t => (inl (OtherError c t), w')
    end.

(** [result.fetchone()] *)
Definition fetchone (rows : list Row) : option Row :=
  match rows with
  | [] => None
  | r :: _ => Some r
  end.

(** ** Repository ([repositories/__init__.py]) *)
Module AuthRepository.

Definition find_user_by_username (db : AsyncSession) (username : str)
  : M (option UserRecord.t) :=
  try_except
    (result <- db_execute db username ;;
     let row := fetchone result in
     match row with
     | None => ret None
     | Some row =>
         user_record <- lift (UserRecord.create (USER_ID row) (PASSWORD row)
                                (USER_NAME row)) ;;
         ret (Some user_record)
     end)
    (fun e => raise e).


End AuthRepository.

(** ** The standard library's token source

    [secrets.token_urlsafe(nbytes)] is
    [base64.urlsafe_b64encode(token_bytes(nbytes)).rstrip(b"=").decode("ascii")]. *)

(** [os.urandom(n)]: the next [n] bytes of the tape. *)
Definition token_bytes (n : nat) : M (list byte) :=
  fun w =>
    (inr (map (entropy w) (seq 0 n)),
     mkWorld (fun i => entropy w (n + i)%nat) (db_calls w)).

Definition b64_alphabet : str :=
  Eval vm_compute in
    py "ABCDEFGHIJKLMNOPQRSTUVWXYZabcdefghijklmnopqrstuvwxyz0123456789+/".

Definition b64_char (i : N) : N := nth (N.to_nat i) b64_alphabet 0.

(** The 6-bit group of [n] that starts at bit [k]. *)
Definition sextet (n k : N) : N := (n / 2 ^ k) mod 64.

Definition PAD : N := 61.

(** [base64.b64encode]: three bytes give four characters, a shorter last
    group is padded with [=]. *)
Fixpoint b64encode (s : list byte) : str :=
  match s with
  | a :: b :: c :: rest =>
      let n := to_N a * 65536 + to_N b * 256 + to_N c in
      b64_char (sextet n 18) :: b64_char (sextet n 12)
        :: b64_char (sextet n 6) :: b64_char (sextet n 0) :: b64encode rest
  | [a; b] =>
      let n := to_N a * 65536 + to_N b * 256 in
      [b64_char (sextet n 18); b64_char (sextet n 12);
       b64_char (sextet n 6); PAD]
  | [a] =>
      let n := to_N a * 65536 in
      [b64_char (sextet n 18); b64_char (sextet n 12); PAD; PAD]
  | [] => []
  end.

(** [bytes.maketrans(b"+/", b"-_")] *)
Definition urlsafe_translation (c : N) : N :=
  if c =? 43 then 45 else if c =? 47 then 95 else c.

Definition urlsafe_b64encode (s : list byte) : str :=
  map urlsafe_translation (b64encode s).

Definition token_urlsafe (nbytes : nat) : M str :=
  tok <- token_bytes nbytes ;;
  ret (rstrip_char PAD (urlsafe_b64encode tok)).

(** ** Messages of the service and the router *)

Definition MSG_EMPTY_USERNAME : str :=
  Eval vm_compute in py "사용자 ID는 빈 문자열일 수 없습니다".
Definition MSG_EMPTY_PASSWORD : str :=
  Eval vm_compute in py "비밀번호는 빈 문자열일 수 없습니다".
Definition MSG_PASSWORD_MISMATCH : str :=
  Eval vm_compute in py "비밀번호가 일치하지 않습니다".
Definition MSG_USER_NOT_FOUND : str :=
  Eval vm_compute in py "사용자를 찾을 수 없습니다: ".
Definition MSG_BAD_CREDENTIALS : str :=
  Eval vm_compute in py "사용자 ID 또는 비밀번호가 올바르지 않습니다".
Definition MSG_LOGIN_ERROR : str :=
  Eval vm_compute in py "로그인 처리 중 오류가 발생했습니다".
Definition MSG_LOGIN_OK : str :=
  Eval vm_compute in py "로그인 성공".

Definition SUB_NOT_FOUND : str := Eval vm_compute in py "찾을 수 없습니다".
Definition SUB_MISMATCH : str := Eval vm_compute in py "일치하지 않습니다".
Definition SUB_INCORRECT : str := Eval vm_compute in py "올바르지 않습니다".
Definition SUB_EMPTY : str := Eval vm_compute in py "빈 문자열".

Definition TOKEN_PREFIX : str := Eval vm_compute in py "temp_token_".

Definition HTTP_200_OK : N := 200.
Definition HTTP_400_BAD_REQUEST : N := 400.
Definition HTTP_401_UNAUTHORIZED : N := 401.
Definition HTTP_500_INTERNAL_SERVER_ERROR : N := 500.

(** ** Service ([service.py])

    The calls to the structured logger are left out: they return nothing
    and no branch depends on them. *)
Module AuthService.

(** Modelled from the spec: [server.app.shared.base.BaseService] is not
    part of the sources at hand, and [AuthService] does not override
    its two hooks.  The specification's flow goes from the request
    straight to validation and from the success envelope straight to
    the caller, so both hooks do nothing. *)
Definition before_execute (request : LoginRequest.t) : M unit := ret tt.

(** Modelled from the spec: the second hook of [BaseService], see
    [before_execute]. *)
Definition after_execute (request : LoginRequest.t)
    (result : ServiceResult.t LoginResponse.t) : M unit := ret tt.

Definition validate_request (request : LoginRequest.t) : M unit :=
  if negb (truthy (strip (LoginRequest.username request))) then
    raise (ValidationException MSG_EMPTY_USERNAME)
  else if negb (truthy (strip (LoginRequest.password request))) then
    raise (ValidationException MSG_EMPTY_PASSWORD)
  else ret tt.

Definition _verify_password (input_password stored_password : str) : M bool :=
  ret (str_eqb input_password stored_password).

Definition _generate_temp_token : M str :=
  t <- token_urlsafe 32 ;;
  ret (TOKEN_PREFIX ++ t).

Definition handle_error (error : Exception) (request : LoginRequest.t)
  : M (ServiceResult.t LoginResponse.t) :=
  let error_message :=
    match error with
    | ValidationException m => exception_message m
    | NotFoundException _ => MSG_BAD_CREDENTIALS
    | _ => MSG_LOGIN_ERROR
    end in
  ret (ServiceResult.fail error_message
         [(py "error_type", type_name error);
          (py "username", LoginRequest.username request)]).

(** The [try] block of [execute]. *)
Definition execute_try (db : AsyncSession) (request : LoginRequest.t)
  : M (ServiceResult.t LoginResponse.t) :=
    (before_execute request ;;;
     validate_request request ;;;
     user_record <- AuthRepository.find_user_by_username db
                      (LoginRequest.username request) ;;
     match user_record with
     | None =>
         raise (NotFoundException
                  (MSG_USER_NOT_FOUND ++ LoginRequest.username request))
     | Some user_record =>
         matches <- _verify_password (LoginRequest.password request)
                      (UserRecord.password user_record) ;;
         if negb matches then
           raise (ValidationException MSG_PASSWORD_MISMATCH)
         else
           token <- _generate_temp_token ;;
           let response :=
             LoginResponse.Build (UserRecord.user_id user_record)
               (UserRecord.user_name user_record) token MSG_LOGIN_OK in
           let result :=
             ServiceResult.ok response
               [(py "username", LoginRequest.username request);
                (py "user_id", UserRecord.user_id user_record)] in
           after_execute request result ;;;
           ret result
     end).

Definition execute (db : AsyncSession) (request : LoginRequest.t)
  : M (ServiceResult.t LoginResponse.t) :=
  try_except (execute_try db request)
    (fun e =>
       match e with
       | ValidationException _ | NotFoundException _ =>
           handle_error e request
       | _ => handle_error e request
       end).

End AuthService.

(** ** Router ([__init__.py]) *)

(** [result.error or "..."] *)
Definition or_default (error : option str) (default : str) : str :=
  match error with
  | Some m => if truthy m then m else default
  | None => default
  end.

Definition login (request : LoginRequest.t) (oracle_db : AsyncSession)
  : M (option LoginResponse.t) :=
  result <- AuthService.execute oracle_db request ;;
  if negb (ServiceResult.success result) then
    let error_message := or_default (ServiceResult.error result) MSG_LOGIN_ERROR in
    if contains SUB_NOT_FOUND error_message
       || contains SUB_MISMATCH error_message
       || contains SUB_INCORRECT error_message
    then raise (HTTPException HTTP_401_UNAUTHORIZED error_message)
    else if contains SUB_EMPTY error_message
    then raise (HTTPException HTTP_400_BAD_REQUEST error_message)
    else raise (HTTPException HTTP_500_INTERNAL_SERVER_ERROR error_message)
  else ret (ServiceResult.data result).

(** The status the framework answers with: the route's [status_code] for a
    returned value, the exception's own for an [HTTPException], and 500
    for any other exception. *)
Definition http_status {A} (outcome : Exception + A) : N :=
  match outcome with
  | inr _ => HTTP_200_OK
  | inl (HTTPException code _) => code
  | inl _ => HTTP_500_INTERNAL_SERVER_ERROR
  end.

(** A world before any request: nothing sent to the database yet. *)
Definition fresh (tape : nat -> byte) : World := mkWorld tape [].

Definition zeros : nat -> byte := fun _ => x00.

(** A row whose three columns are text. *)
Definition text_row (user_id password user_name : str) : Row :=
  (Text user_id, Text password, Text user_name).

Definition sample_table : list Row :=
  [text_row (py "user001") (py "password123") (py "홍길동")].

Definition rq (u p : string) : LoginRequest.t := LoginRequest.Build (py u) (py p).

(** ** Notions used in the statements *)

(** Empty or whitespace-only, in the words of the specification. *)
Definition blank (s : str) : bool := forallb isspace s.

(** The world once the lookup for [username] has been sent. *)
Definition queried (w0 : World) (u : str) : World :=
  mkWorld (entropy w0) (db_calls w0 ++ [u]).

(** The metadata of a failure envelope. *)
Definition failure_metadata (kind : str) (u : str) : list (str * str) :=
  [(py "error_type", kind); (py "username", u)].

(** What [execute] returns, case by case; [execute_eq] below proves the
    service's [execute] equal to it. *)
Definition execute_result (request : LoginRequest.t) (w : World)
    (db : AsyncSession)
  : (Exception + ServiceResult.t LoginResponse.t) * World :=
  let username := LoginRequest.username request in
  let password := LoginRequest.password request in
  if blank username then
    (inr (ServiceResult.fail MSG_EMPTY_USERNAME
            (failure_metadata (py "ValidationException") username)), w)
  else if blank password then
    (inr (ServiceResult.fail MSG_EMPTY_PASSWORD
            (failure_metadata (py "ValidationException") username)), w)
  else
    match db with
    | Broken c t =>
        (inr (ServiceResult.fail MSG_LOGIN_ERROR (failure_metadata c username)),
         queried w username)
    | Online T_USER =>
        match select_user T_USER username with
        | [] =>
            (inr (ServiceResult.fail MSG_BAD_CREDENTIALS
                    (failure_metadata (py "NotFoundException") username)),
             queried w username)
        | r :: _ =>
            match UserRecord.create (USER_ID r) (PASSWORD r) (USER_NAME r) with
            | inl _ =>
                (inr (ServiceResult.fail MSG_LOGIN_ERROR
                        (failure_metadata (py "ValidationError") username)),
                 queried w username)
            | inr record =>
                if str_eqb password (UserRecord.password record) then
                  (inr (ServiceResult.ok
                          (LoginResponse.Build (UserRecord.user_id record)
                             (UserRecord.user_name record)
                             (TOKEN_PREFIX
                                ++ rstrip_char PAD
                                     (urlsafe_b64encode
                                        (map (entropy w) (seq 0 32))))
                             MSG_LOGIN_OK)
                          [(py "username", username);
                           (py "user_id", UserRecord.user_id record)]),
                   mkWorld (fun i => entropy w (32 + i)%nat)
                     (db_calls w ++ [username]))
                else
                  (inr (ServiceResult.fail MSG_PASSWORD_MISMATCH
                          (failure_metadata (py "ValidationException")
                             username)),
                   queried w username)
            end
        end
    end.

(** The status for a failure message, in the words of the specification:
    401 when it contains one of the three credential phrases, otherwise
    400 when it contains the empty-string phrase, otherwise 500. *)
Definition status_by_message (msg : str) : N :=
  if contains SUB_NOT_FOUND msg || contains SUB_MISMATCH msg
     || contains SUB_INCORRECT msg
  then 401
  else if contains SUB_EMPTY msg then 400
  else 500.

(** Character [i] of the URL-safe alphabet. *)
Definition urlsafe_char (i : N) : N := urlsafe_translation (b64_char i).

(** Letters, digits, [-] and [_]. *)
Definition is_urlsafe (c : N) : bool :=
  ((65 <=? c) && (c <=? 90)) || ((97 <=? c) && (c <=? 122))
  || ((48 <=? c) && (c <=? 57)) || (c =? 45) || (c =? 95).

(** The position of a URL-safe character in its alphabet. *)
Definition urlsafe_index (c : N) : N :=
  if (65 <=? c) && (c <=? 90) then c - 65
  else if (97 <=? c) && (c <=? 122) then c - 71
  else if (48 <=? c) && (c <=? 57) then c + 4
  else if c =? 45 then 62
  else 63.

(** The body of a token: the URL-safe characters of the encoding without
    its padding. *)
Fixpoint unpadded (s : list byte) : str :=
  match s with
  | a :: b :: c :: rest =>
      let n := to_N a * 65536 + to_N b * 256 + to_N c in
      urlsafe_char (sextet n 18) :: urlsafe_char (sextet n 12)
        :: urlsafe_char (sextet n 6) :: urlsafe_char (sextet n 0)
        :: unpadded rest
  | [a; b] =>
      let n := to_N a * 65536 + to_N b * 256 in
      [urlsafe_char (sextet n 18); urlsafe_char (sextet n 12);
       urlsafe_char (sextet n 6)]
  | [a] =>
      let n := to_N a * 65536 in
      [urlsafe_char (sextet n 18); urlsafe_char (sextet n 12)]
  | [] => []
  end.

(** The messages a failure envelope can carry. *)
Definition failure_messages : list str :=
  [MSG_EMPTY_USERNAME; MSG_EMPTY_PASSWORD; MSG_PASSWORD_MISMATCH;
   MSG_BAD_CREDENTIALS; MSG_LOGIN_ERROR].

(** The next [n] bytes the random source will give. *)
Definition draw (n : nat) (w : World) : list byte := map (entropy w) (seq 0 n).

(** ** Facts about strings *)

Lemma str_eqb_refl (a : str) : str_eqb a a = true.
Proof.
  induction a as [|x a IH]; simpl; [reflexivity|].
  now rewrite N.eqb_refl, IH.
Qed.

Lemma str_eqb_eq (a b : str) : str_eqb a b = true <-> a = b.
Proof.
  split.
  - revert b; induction a as [|x a IH]; intros [|y b] H; simpl in H;
      try discriminate; [reflexivity|].
    apply andb_true_iff in H as [Hxy Hab].
    apply N.eqb_eq in Hxy. f_equal; [exact Hxy | now apply IH].
  - intros ->. apply str_eqb_refl.
Qed.

Lemma str_eqb_neq (a b : str) : str_eqb a b = false <-> a <> b.
Proof.
  split.
  - intros H E. apply str_eqb_eq in E. congruence.
  - intros H. destruct (str_eqb a b) eqn:E; [|reflexivity].
    apply str_eqb_eq in E. contradiction.
Qed.

Lemma lstrip_blank (s : str) : blank s = true -> lstrip s = [].
Proof.
  induction s as [|c s IH]; simpl; [reflexivity|].
  intros H. apply andb_true_iff in H as [Hc Hs]. rewrite Hc. now apply IH.
Qed.

Lemma lstrip_not_blank (s : str) :
  blank s = false ->
  exists c t, lstrip s = c :: t /\ isspace c = false.
Proof.
  induction s as [|c s IH]; simpl; [discriminate|].
  destruct (isspace c) eqn:Hc; simpl.
  - exact IH.
  - intros _. now exists c, s.
Qed.

Lemma blank_app (a b : str) : blank (a ++ b) = blank a && blank b.
Proof. apply forallb_app. Qed.

Lemma blank_rev (s : str) : blank (rev s) = blank s.
Proof.
  induction s as [|c s IH]; simpl; [reflexivity|].
  rewrite blank_app, IH. simpl. rewrite andb_true_r. apply andb_comm.
Qed.

Lemma lstrip_suffix_blank (s : str) : blank s = false -> blank (lstrip s) = false.
Proof.
  induction s as [|c s IH]; simpl; [discriminate|].
  destruct (isspace c) eqn:Hc; simpl.
  - exact IH.
  - now rewrite Hc.
Qed.

(** [not s.strip()] holds exactly for the empty and the whitespace-only
    strings. *)
Lemma strip_truthy (s : str) : truthy (strip s) = negb (blank s).
Proof.
  unfold strip, rstrip.
  destruct (blank s) eqn:Hb; simpl.
  - now rewrite (lstrip_blank s Hb).
  - pose proof (lstrip_suffix_blank s Hb) as H1.
    rewrite <- blank_rev in H1.
    destruct (lstrip_not_blank _ H1) as (c & t & Ht & _).
    rewrite Ht. simpl.
    destruct (rev t); reflexivity.
Qed.

(** ** Building a record from a row *)

Lemma create_record (a b c : Cell) (record : UserRecord.t) :
  UserRecord.create a b c = inr record
  <-> a = Text (UserRecord.user_id record)
      /\ b = Text (UserRecord.password record)
      /\ c = Text (UserRecord.user_name record).
Proof.
  split.
  - destruct a, b, c; simpl; intros H; try discriminate H.
    injection H as <-. now repeat split.
  - intros (-> & -> & ->). now destruct record.
Qed.

Lemma create_error (a b c : Cell) (e : Exception) :
  UserRecord.create a b c = inl e ->
  is_text a && is_text b && is_text c = false
  /\ e = OtherError (py "ValidationError")
           (UserRecord.report
              (length (filter (fun x => negb (is_text x)) [a; b; c]))).
Proof.
  destruct a, b, c; simpl; intros H; try discriminate H;
    injection H as <-; now split.
Qed.

(** ** The equations of each layer *)

Section Equations.
Variable request : LoginRequest.t.
Variable w : World.

Let username := LoginRequest.username request.
Let password := LoginRequest.password request.

Lemma validate_request_eq :
  AuthService.validate_request request w =
  if blank username then (inl (ValidationException MSG_EMPTY_USERNAME), w)
  else if blank password then (inl (ValidationException MSG_EMPTY_PASSWORD), w)
  else (inr tt, w).
Proof.
  unfold AuthService.validate_request, username, password.
  rewrite !strip_truthy, !negb_involutive.
  destruct (blank _); [reflexivity|].
  destruct (blank _); reflexivity.
Qed.

Lemma find_user_by_username_eq (db : AsyncSession) (u : str) :
  AuthRepository.find_user_by_username db u w =
  match db with
  | Online T_USER =>
      match fetchone (select_user T_USER u) with
      | None => (inr None, queried w u)
      | Some r =>
          match UserRecord.create (USER_ID r) (PASSWORD r) (USER_NAME r) with
          | inl e => (inl e, queried w u)
          | inr record => (inr (Some record), queried w u)
          end
      end
  | Broken c t => (inl (OtherError c t), queried w u)
  end.
Proof.
  unfold AuthRepository.find_user_by_username, try_except, bind, db_execute,
    queried, lift.
  destruct db as [T_USER | c t]; [|reflexivity].
  destruct (fetchone (select_user T_USER u)) as [r|]; [|reflexivity].
  destruct (UserRecord.create _ _ _); reflexivity.
Qed.

Lemma token_urlsafe_eq (n : nat) :
  token_urlsafe n w =
  (inr (rstrip_char PAD (urlsafe_b64encode (map (entropy w) (seq 0 n)))),
   mkWorld (fun i => entropy w (n + i)%nat) (db_calls w)).
Proof. reflexivity. Qed.

Lemma generate_temp_token_eq :
  AuthService._generate_temp_token w =
  (inr (TOKEN_PREFIX
          ++ rstrip_char PAD (urlsafe_b64encode (map (entropy w) (seq 0 32)))),
   mkWorld (fun i => entropy w (32 + i)%nat) (db_calls w)).
Proof. reflexivity. Qed.

Lemma execute_eq (db : AsyncSession) :
  AuthService.execute db request w = execute_result request w db.
Proof.
  unfold AuthService.execute, AuthService.execute_try, execute_result,
    try_except, bind.
  unfold AuthService.before_execute, ret at 1.
  rewrite validate_request_eq. fold username password.
  destruct (blank username); [reflexivity|].
  destruct (blank password); [reflexivity|].
  rewrite find_user_by_username_eq.
  destruct db as [T_USER | c t]; [|reflexivity].
  destruct (select_user T_USER username) as [|r rest]; [reflexivity|].
  cbv beta iota delta [fetchone].
  destruct (UserRecord.create (USER_ID r) (PASSWORD r) (USER_NAME r))
    as [e | record] eqn:Hc.
  - apply create_error in Hc as [_ ->]. reflexivity.
  - cbv beta iota delta [AuthService._verify_password ret bind].
    destruct (str_eqb password (UserRecord.password record)); reflexivity.
Qed.

End Equations.

Lemma login_eq (request : LoginRequest.t) (db : AsyncSession) (w : World) :
  login request db w =
  match AuthService.execute db request w with
  | (inr result, w') =>
      if ServiceResult.success result then (inr (ServiceResult.data result), w')
      else
        let msg := or_default (ServiceResult.error result) MSG_LOGIN_ERROR in
        (inl (HTTPException (status_by_message msg) msg), w')
  | (inl e, w') => (inl e, w')
  end.
Proof.
  unfold login, bind, status_by_message.
  destruct (AuthService.execute db request w) as [[e | result] w'];
    [reflexivity|].
  destruct (ServiceResult.success result); simpl; [reflexivity|].
  destruct (_ || _); [reflexivity|].
  destruct (contains SUB_EMPTY _); reflexivity.
Qed.

(** What the router answers to a failure envelope carrying [msg]. *)
Lemma login_of_failure (request : LoginRequest.t) (db : AsyncSession)
    (w w' : World) (msg : str) (md : list (str * str)) :
  AuthService.execute db request w = (inr (ServiceResult.fail msg md), w') ->
  truthy msg = true ->
  login request db w = (inl (HTTPException (status_by_message msg) msg), w').
Proof.
  intros He Hm. rewrite login_eq, He. simpl. now rewrite Hm.
Qed.

Lemma find_user_records_call (db : AsyncSession) (u : str) (w : World) :
  db_calls (snd (AuthRepository.find_user_by_username db u w))
  = db_calls w ++ [u].
Proof.
  rewrite find_user_by_username_eq. destruct db as [T_USER | c t];
    [|reflexivity].
  destruct (fetchone _) as [r|]; [|reflexivity].
  destruct (UserRecord.create _ _ _); reflexivity.
Qed.

Lemma cell_equals_eq (c : Cell) (u : str) :
  cell_equals c u = true <-> c = Text u.
Proof.
  destruct c as [s0| |t]; simpl; split; intros H; try discriminate H.
  - apply str_eqb_eq in H. now subst.
  - injection H as ->. apply str_eqb_refl.
Qed.

Lemma cell_equals_neq (c : Cell) (u : str) :
  cell_equals c u = false <-> c <> Text u.
Proof.
  split.
  - intros H E. apply cell_equals_eq in E. congruence.
  - intros H. destruct (cell_equals c u) eqn:E; [|reflexivity].
    apply cell_equals_eq in E. contradiction.
Qed.

(** The query returns no row when no row has the username as its key. *)
Lemma select_user_none (T_USER : list Row) (u : str) :
  (forall r, In r T_USER -> USER_ID r <> Text u) -> select_user T_USER u = [].
Proof.
  induction T_USER as [|x t IH]; intros H; simpl; [reflexivity|].
  assert (Hx : cell_equals (USER_ID x) u = false)
    by (apply cell_equals_neq, H; now left).
  rewrite Hx. apply IH. intros r Hr. apply H. now right.
Qed.

Lemma select_user_sound (T_USER : list Row) (u : str) (r : Row) :
  In r (select_user T_USER u) -> In r T_USER /\ USER_ID r = Text u.
Proof.
  unfold select_user. intros H. apply filter_In in H as [Hin Heq].
  split; [exact Hin | now apply cell_equals_eq].
Qed.

Lemma fetchone_sound (T_USER : list Row) (u : str) (r : Row) :
  fetchone (select_user T_USER u) = Some r ->
  In r T_USER /\ USER_ID r = Text u.
Proof.
  intros H. apply select_user_sound.
  destruct (select_user T_USER u) as [|x rest]; [discriminate H|].
  injection H as ->. now left.
Qed.

Ltac euclid := zify; Z.to_euclidean_division_equations; lia.

Lemma below_64 (P : N -> bool) :
  forallb P (map N.of_nat (seq 0 64)) = true ->
  forall i, i < 64 -> P i = true.
Proof.
  intros H i Hi. rewrite forallb_forall in H. apply H.
  rewrite <- (N2Nat.id i). apply in_map, in_seq. lia.
Qed.

Lemma sextet_lt (n k : N) : sextet n k < 64.
Proof. unfold sextet. apply N.mod_lt. discriminate. Qed.

Lemma urlsafe_char_sound (i : N) :
  i < 64 ->
  is_urlsafe (urlsafe_char i) = true
  /\ urlsafe_char i <> PAD
  /\ urlsafe_index (urlsafe_char i) = i.
Proof.
  intros Hi.
  pose proof (below_64
    (fun i => is_urlsafe (urlsafe_char i)
              && negb (urlsafe_char i =? PAD)
              && (urlsafe_index (urlsafe_char i) =? i))
    eq_refl i Hi) as H.
  simpl in H. apply andb_true_iff in H as [H H3].
  apply andb_true_iff in H as [H1 H2].
  repeat split.
  - exact H1.
  - apply negb_true_iff, N.eqb_neq in H2. exact H2.
  - now apply N.eqb_eq.
Qed.

Lemma urlsafe_char_inj (i j : N) :
  i < 64 -> j < 64 -> urlsafe_char i = urlsafe_char j -> i = j.
Proof.
  intros Hi Hj E.
  destruct (urlsafe_char_sound i Hi) as (_ & _ & <-).
  destruct (urlsafe_char_sound j Hj) as (_ & _ & <-).
  now rewrite E.
Qed.

Lemma lstrip_char_snoc (c x : N) (s : str) :
  x <> c -> lstrip_char c (s ++ [x]) = lstrip_char c s ++ [x].
Proof.
  intros Hx. induction s as [|y s IH]; simpl.
  - apply N.eqb_neq in Hx. now rewrite Hx.
  - destruct (y =? c); [exact IH | reflexivity].
Qed.

Lemma rstrip_char_cons (c x : N) (s : str) :
  x <> c -> rstrip_char c (x :: s) = x :: rstrip_char c s.
Proof.
  intros Hx. unfold rstrip_char. simpl rev.
  rewrite lstrip_char_snoc by exact Hx.
  rewrite rev_app_distr. reflexivity.
Qed.

Lemma list_ind3 {A} (P : list A -> Prop) :
  P [] -> (forall a, P [a]) -> (forall a b, P [a; b]) ->
  (forall a b c rest, P rest -> P (a :: b :: c :: rest)) ->
  forall l, P l.
Proof.
  intros H0 H1 H2 H3.
  fix go 1. intros [|a [|b [|c rest]]].
  - exact H0.
  - apply H1.
  - apply H2.
  - apply H3, go.
Qed.

Lemma urlsafe_char_not_pad (n k : N) : urlsafe_char (sextet n k) <> PAD.
Proof. apply urlsafe_char_sound, sextet_lt. Qed.

Lemma rstrip_encoding (s : list byte) :
  rstrip_char PAD (urlsafe_b64encode s) = unpadded s.
Proof.
  unfold urlsafe_b64encode.
  induction s as [|a|a b|a b c rest IH] using list_ind3.
  - reflexivity.
  - cbn [b64encode map unpadded]. fold (urlsafe_char (sextet (to_N a * 65536) 18)).
    fold (urlsafe_char (sextet (to_N a * 65536) 12)).
    rewrite !rstrip_char_cons by apply urlsafe_char_not_pad. reflexivity.
  - cbn [b64encode map unpadded].
    repeat match goal with
           | |- context [urlsafe_translation (b64_char ?i)] =>
               fold (urlsafe_char i)
           end.
    rewrite !rstrip_char_cons by apply urlsafe_char_not_pad. reflexivity.
  - cbn [b64encode map unpadded].
    repeat match goal with
           | |- context [urlsafe_translation (b64_char ?i)] =>
               fold (urlsafe_char i)
           end.
    rewrite !rstrip_char_cons by apply urlsafe_char_not_pad.
    now rewrite IH.
Qed.

Lemma unpadded_length (s : list byte) :
  length (unpadded s) = ((4 * length s + 2) / 3)%nat.
Proof.
  induction s as [|a|a b|a b c rest IH] using list_ind3;
    try reflexivity.
  cbn [unpadded length]. rewrite IH.
  generalize (length rest); intros n.
  change (4 + (4 * n + 2) / 3 = (4 * (3 + n) + 2) / 3)%nat.
  replace (4 * (3 + n) + 2)%nat with (4 * n + 2 + 4 * 3)%nat by lia.
  rewrite Nat.div_add by discriminate. lia.
Qed.

Lemma unpadded_urlsafe (s : list byte) :
  forallb is_urlsafe (unpadded s) = true.
Proof.
  induction s as [|a|a b|a b c rest IH] using list_ind3;
    cbn [unpadded forallb];
    rewrite ?IH, ?(proj1 (urlsafe_char_sound _ (sextet_lt _ _)));
    reflexivity.
Qed.

Lemma to_N_inj (x y : byte) : to_N x = to_N y -> x = y.
Proof.
  intros E. pose proof (of_to_N x) as Hx. rewrite E, of_to_N in Hx.
  now injection Hx.
Qed.

Lemma cons_eq_inv {A} (x y : A) (l l' : list A) :
  x :: l = y :: l' -> x = y /\ l = l'.
Proof. intros H. injection H as Hx Hl. now split. Qed.

Ltac sextets H :=
  repeat match type of H with
         | _ :: _ = _ :: _ =>
             let E := fresh "E" in
             apply cons_eq_inv in H; destruct H as [E H];
             apply urlsafe_char_inj in E; [|apply sextet_lt ..]
         end.

Ltac bytes_bounded :=
  repeat match goal with
         | x : byte |- _ =>
             lazymatch goal with
             | _ : to_N x <= 255 |- _ => fail
             | _ => pose proof (to_N_bounded x)
             end
         end.

Ltac unfold_sextets :=
  unfold sextet in *;
  change (2 ^ 18) with 262144 in *; change (2 ^ 12) with 4096 in *;
  change (2 ^ 6) with 64 in *; change (2 ^ 0) with 1 in *.

(** A 24-bit group is the sum of its four sextets. *)
Lemma sextets_sum (n : N) :
  n < 16777216 ->
  n = sextet n 18 * 262144 + sextet n 12 * 4096 + sextet n 6 * 64 + sextet n 0.
Proof. intros Hn. unfold_sextets. euclid. Qed.

Lemma sextets_inj (n m : N) :
  n < 16777216 -> m < 16777216 ->
  sextet n 18 = sextet m 18 -> sextet n 12 = sextet m 12 ->
  sextet n 6 = sextet m 6 -> sextet n 0 = sextet m 0 -> n = m.
Proof.
  intros Hn Hm E18 E12 E6 E0.
  rewrite (sextets_sum n Hn), (sextets_sum m Hm). congruence.
Qed.

Lemma sextet_low_2 (x y : N) : sextet (x * 65536 + y * 256) 0 = 0.
Proof. unfold_sextets. euclid. Qed.

Lemma sextet_low_1 (x : N) :
  sextet (x * 65536) 6 = 0 /\ sextet (x * 65536) 0 = 0.
Proof. unfold_sextets. split; euclid. Qed.

(** Distinct byte strings have distinct token bodies. *)
Lemma unpadded_inj (s1 s2 : list byte) :
  unpadded s1 = unpadded s2 -> s1 = s2.
Proof.
  revert s2.
  induction s1 as [|a|a b|a b c rest IH] using list_ind3;
    intros [|a' [|b' [|c' rest']]] H; cbn [unpadded] in H;
    try reflexivity; try discriminate H.
  - sextets H. bytes_bounded.
    destruct (sextet_low_1 (to_N a)) as [L6 L0].
    destruct (sextet_low_1 (to_N a')) as [L6' L0'].
    assert (En : to_N a * 65536 = to_N a' * 65536)
      by (apply sextets_inj; [lia | lia | congruence ..]).
    f_equal. apply to_N_inj. lia.
  - sextets H. bytes_bounded.
    pose proof (sextet_low_2 (to_N a) (to_N b)) as L0.
    pose proof (sextet_low_2 (to_N a') (to_N b')) as L0'.
    assert (En : to_N a * 65536 + to_N b * 256
                 = to_N a' * 65536 + to_N b' * 256)
      by (apply sextets_inj; [lia | lia | congruence ..]).
    assert (to_N a = to_N a' /\ to_N b = to_N b') as [Ea Eb] by lia.
    apply to_N_inj in Ea, Eb. now subst.
  - sextets H. bytes_bounded.
    assert (En : to_N a * 65536 + to_N b * 256 + to_N c
                 = to_N a' * 65536 + to_N b' * 256 + to_N c')
      by (apply sextets_inj; [lia | lia | congruence ..]).
    assert (to_N a = to_N a' /\ to_N b = to_N b' /\ to_N c = to_N c')
      as (Ea & Eb & Ec) by lia.
    apply to_N_inj in Ea, Eb, Ec. subst. f_equal. f_equal. f_equal.
    now apply IH.
Qed.

(** ** The paths through [execute] and [login] *)

Section Paths.
Variable request : LoginRequest.t.
Variable w : World.

Let username := LoginRequest.username request.
Let password := LoginRequest.password request.

Lemma execute_blank_username (db : AsyncSession) :
  blank username = true ->
  AuthService.execute db request w =
  (inr (ServiceResult.fail MSG_EMPTY_USERNAME
          (failure_metadata (py "ValidationException") username)), w).
Proof.
  intros Hu. rewrite execute_eq. unfold execute_result.
  fold username. now rewrite Hu.
Qed.

Lemma execute_blank_password (db : AsyncSession) :
  blank username = false -> blank password = true ->
  AuthService.execute db request w =
  (inr (ServiceResult.fail MSG_EMPTY_PASSWORD
          (failure_metadata (py "ValidationException") username)), w).
Proof.
  intros Hu Hp. rewrite execute_eq. unfold execute_result.
  fold username password. now rewrite Hu, Hp.
Qed.

Lemma execute_broken (c t : str) :
  blank username = false -> blank password = false ->
  AuthService.execute (Broken c t) request w =
  (inr (ServiceResult.fail MSG_LOGIN_ERROR (failure_metadata c username)),
   queried w username).
Proof.
  intros Hu Hp. rewrite execute_eq. unfold execute_result.
  fold username password. now rewrite Hu, Hp.
Qed.

Lemma execute_not_found (T_USER : list Row) :
  blank username = false -> blank password = false ->
  select_user T_USER username = [] ->
  AuthService.execute (Online T_USER) request w =
  (inr (ServiceResult.fail MSG_BAD_CREDENTIALS
          (failure_metadata (py "NotFoundException") username)),
   queried w username).
Proof.
  intros Hu Hp Hs. rewrite execute_eq. unfold execute_result.
  fold username password. now rewrite Hu, Hp, Hs.
Qed.

Lemma execute_mismatch (T_USER : list Row) (r : Row) (rest : list Row)
    (record : UserRecord.t) :
  blank username = false -> blank password = false ->
  select_user T_USER username = r :: rest ->
  UserRecord.create (USER_ID r) (PASSWORD r) (USER_NAME r) = inr record ->
  UserRecord.password record <> password ->
  AuthService.execute (Online T_USER) request w =
  (inr (ServiceResult.fail MSG_PASSWORD_MISMATCH
          (failure_metadata (py "ValidationException") username)),
   queried w username).
Proof.
  intros Hu Hp Hs Hc Hne. rewrite execute_eq. unfold execute_result.
  fold username password. rewrite Hu, Hp, Hs, Hc.
  assert (E : str_eqb password (UserRecord.password record) = false)
    by (apply str_eqb_neq; congruence).
  now rewrite E.
Qed.

Lemma execute_success (T_USER : list Row) (r : Row) (rest : list Row)
    (record : UserRecord.t) :
  blank username = false -> blank password = false ->
  select_user T_USER username = r :: rest ->
  UserRecord.create (USER_ID r) (PASSWORD r) (USER_NAME r) = inr record ->
  UserRecord.password record = password ->
  exists token w1,
    AuthService._generate_temp_token (queried w username) = (inr token, w1)
    /\ AuthService.execute (Online T_USER) request w =
       (inr (ServiceResult.ok
               (LoginResponse.Build (UserRecord.user_id record)
                  (UserRecord.user_name record) token MSG_LOGIN_OK)
               [(py "username", username);
                (py "user_id", UserRecord.user_id record)]),
        w1).
Proof.
  intros Hu Hp Hs Hc He. rewrite execute_eq. unfold execute_result.
  fold username password. rewrite Hu, Hp, Hs, Hc, He, str_eqb_refl.
  rewrite generate_temp_token_eq. eexists _, _. split; reflexivity.
Qed.

Lemma login_not_found (T_USER : list Row) :
  blank username = false -> blank password = false ->
  select_user T_USER username = [] ->
  login request (Online T_USER) w =
  (inl (HTTPException HTTP_401_UNAUTHORIZED MSG_BAD_CREDENTIALS),
   queried w username).
Proof.
  intros Hu Hp Hs.
  now rewrite (login_of_failure _ _ _ _ _ _ (execute_not_found _ Hu Hp Hs)).
Qed.

Lemma login_mismatch (T_USER : list Row) (r : Row) (rest : list Row)
    (record : UserRecord.t) :
  blank username = false -> blank password = false ->
  select_user T_USER username = r :: rest ->
  UserRecord.create (USER_ID r) (PASSWORD r) (USER_NAME r) = inr record ->
  UserRecord.password record <> password ->
  login request (Online T_USER) w =
  (inl (HTTPException HTTP_401_UNAUTHORIZED MSG_PASSWORD_MISMATCH),
   queried w username).
Proof.
  intros Hu Hp Hs Hc Hne.
  now rewrite (login_of_failure _ _ _ _ _ _
                 (execute_mismatch _ _ _ _ Hu Hp Hs Hc Hne)).
Qed.

Lemma login_broken (c t : str) :
  blank username = false -> blank password = false ->
  login request (Broken c t) w =
  (inl (HTTPException HTTP_500_INTERNAL_SERVER_ERROR MSG_LOGIN_ERROR),
   queried w username).
Proof.
  intros Hu Hp.
  now rewrite (login_of_failure _ _ _ _ _ _ (execute_broken c t Hu Hp)).
Qed.

Lemma login_blank (db : AsyncSession) :
  blank username = true \/ blank password = true ->
  exists msg,
    (msg = MSG_EMPTY_USERNAME \/ msg = MSG_EMPTY_PASSWORD)
    /\ AuthService.execute db request w =
       (inr (ServiceResult.fail msg
               (failure_metadata (py "ValidationException") username)), w)
    /\ login request db w =
       (inl (HTTPException HTTP_400_BAD_REQUEST msg), w).
Proof.
  intros H. destruct (blank username) eqn:Hu.
  - exists MSG_EMPTY_USERNAME. split; [now left|].
    pose proof (execute_blank_username db Hu) as He. split; [exact He|].
    now rewrite (login_of_failure _ _ _ _ _ _ He).
  - destruct H as [H | Hp]; [discriminate|].
    exists MSG_EMPTY_PASSWORD. split; [now right|].
    pose proof (execute_blank_password db Hu Hp) as He. split; [exact He|].
    now rewrite (login_of_failure _ _ _ _ _ _ He).
Qed.

End Paths.

(** ** Properties of the login flow *)

(** C1: a wrong password for a stored user and a username that names no
    stored record are both answered with 401, but not with the same
    detail text: on the table holding user001/password123, the request
    user001/wrong gets the mismatch message and the request ghost/wrong
    gets the vague credentials message, and the two texts differ. *)
Theorem wrong_password_detail_differs_from_unknown_user :
  let db := Online sample_table in
  LoginRequest.well_formed (rq "user001" "wrong") = true
  /\ LoginRequest.well_formed (rq "ghost" "wrong") = true
  /\ fst (login (rq "user001" "wrong") db (fresh zeros))
     = inl (HTTPException 401 MSG_PASSWORD_MISMATCH)
  /\ fst (login (rq "ghost" "wrong") db (fresh zeros))
     = inl (HTTPException 401 MSG_BAD_CREDENTIALS)
  /\ MSG_PASSWORD_MISMATCH <> MSG_BAD_CREDENTIALS.
Proof.
  cbv zeta. repeat split; try reflexivity. discriminate.
Qed.

(** C2, as the code has it: when neither field is blank and the first row
    the store returns for the username holds the submitted password and a
    name that is text, [execute] returns the success envelope with the
    username as id, that row's name, the token the issuer produced and
    the success message, and the router returns that response with
    status 200. *)
Theorem matching_credentials_login_succeeds
    (T_USER : list Row) (request : LoginRequest.t) (w : World) (r : Row)
    (name : str) :
  blank (LoginRequest.username request) = false ->
  blank (LoginRequest.password request) = false ->
  fetchone (select_user T_USER (LoginRequest.username request)) = Some r ->
  PASSWORD r = Text (LoginRequest.password request) ->
  USER_NAME r = Text name ->
  exists token w1,
    AuthService._generate_temp_token
      (queried w (LoginRequest.username request)) = (inr token, w1)
    /\ AuthService.execute (Online T_USER) request w =
       (inr (ServiceResult.ok
               (LoginResponse.Build (LoginRequest.username request) name token
                  MSG_LOGIN_OK)
               [(py "username", LoginRequest.username request);
                (py "user_id", LoginRequest.username request)]),
        w1)
    /\ login request (Online T_USER) w =
       (inr (Some (LoginResponse.Build (LoginRequest.username request) name
                     token MSG_LOGIN_OK)), w1)
    /\ http_status (fst (login request (Online T_USER) w)) = 200.
Proof.
  intros Hu Hp Hf Hpw Hn.
  destruct (fetchone_sound _ _ _ Hf) as [_ Hid].
  destruct (select_user T_USER (LoginRequest.username request))
    as [|x rest] eqn:Hs; [discriminate Hf|].
  injection Hf as ->.
  assert (Hc : UserRecord.create (USER_ID r) (PASSWORD r) (USER_NAME r)
               = inr (UserRecord.Build (LoginRequest.username request)
                        (LoginRequest.password request) name))
    by (now rewrite Hid, Hpw, Hn).
  destruct (execute_success request w T_USER r rest _ Hu Hp Hs Hc eq_refl)
    as (token & w1 & Hg & He).
  exists token, w1. split; [exact Hg|]. split; [exact He|].
  rewrite login_eq, He. split; reflexivity.
Qed.

(** The scenario of C2: user001/password123 against the table holding
    user001/password123/홍길동 answers with that user's name. *)
Lemma matching_credentials_login_succeeds_witness :
  blank (py "user001") = false
  /\ blank (py "password123") = false
  /\ fetchone (select_user sample_table (py "user001"))
     = Some (text_row (py "user001") (py "password123") (py "홍길동"))
  /\ exists token w1,
       AuthService._generate_temp_token (queried (fresh zeros) (py "user001"))
         = (inr token, w1)
       /\ AuthService.execute (Online sample_table)
            (rq "user001" "password123") (fresh zeros) =
          (inr (ServiceResult.ok
                  (LoginResponse.Build (py "user001") (py "홍길동") token
                     MSG_LOGIN_OK)
                  [(py "username", py "user001"); (py "user_id", py "user001")]),
           w1)
       /\ login (rq "user001" "password123") (Online sample_table) (fresh zeros) =
          (inr (Some (LoginResponse.Build (py "user001") (py "홍길동") token
                        MSG_LOGIN_OK)), w1)
       /\ http_status
            (fst (login (rq "user001" "password123") (Online sample_table)
                    (fresh zeros))) = 200.
Proof.
  split; [reflexivity|]. split; [reflexivity|]. split; [reflexivity|].
  apply (matching_credentials_login_succeeds sample_table
           (rq "user001" "password123") (fresh zeros)
           (text_row (py "user001") (py "password123") (py "홍길동"))
           (py "홍길동"));
    reflexivity.
Defined.

(** C2 as stated fails: a store can hold the record user001/password123
    and still refuse these credentials.  Behind an earlier row with the
    same [USER_ID] and another password the answer is 401, and when the
    record's [USER_NAME] is [NULL] the answer is 500. *)
Lemma stored_matching_record_can_be_refused :
  let request := rq "user001" "password123" in
  let good := text_row (py "user001") (py "password123") (py "홍길동") in
  let stale := text_row (py "user001") (py "old-password") (py "홍길동") in
  let nameless := (Text (py "user001"), Text (py "password123"), Null) in
  LoginRequest.well_formed request = true
  /\ blank (LoginRequest.username request) = false
  /\ blank (LoginRequest.password request) = false
  /\ In good [stale; good]
  /\ fst (login request (Online [stale; good]) (fresh zeros))
     = inl (HTTPException 401 MSG_PASSWORD_MISMATCH)
  /\ USER_ID nameless = Text (LoginRequest.username request)
  /\ PASSWORD nameless = Text (LoginRequest.password request)
  /\ fst (login request (Online [nameless]) (fresh zeros))
     = inl (HTTPException 500 MSG_LOGIN_ERROR).
Proof.
  cbv zeta. repeat split; try reflexivity. simpl. auto.
Qed.

(** C3: a request whose username or password is empty or whitespace-only
    gets a validation failure whose message contains the empty-string
    phrase, the router answers it with 400, and the repository is not
    called: every call of [find_user_by_username] adds to the record of
    lookups, and that record is unchanged. *)
Theorem blank_field_rejected_before_lookup
    (request : LoginRequest.t) (db : AsyncSession) (w : World) :
  blank (LoginRequest.username request) = true
  \/ blank (LoginRequest.password request) = true ->
  AuthService.validate_request request w <> (inr tt, w)
  /\ exists msg,
       AuthService.execute db request w =
       (inr (ServiceResult.fail msg
               (failure_metadata (py "ValidationException")
                  (LoginRequest.username request))), w)
       /\ contains SUB_EMPTY msg = true
       /\ login request db w = (inl (HTTPException 400 msg), w)
       /\ db_calls (snd (AuthService.execute db request w)) = db_calls w
       /\ db_calls (snd (login request db w)) = db_calls w
       /\ (forall u w0,
             db_calls (snd (AuthRepository.find_user_by_username db u w0))
             = db_calls w0 ++ [u]).
Proof.
  intros H. split.
  - rewrite validate_request_eq.
    destruct (blank (LoginRequest.username request)); [discriminate|].
    destruct H as [H | ->]; discriminate.
  - destruct (login_blank request w db H) as (msg & Hm & He & Hl).
    exists msg. rewrite He, Hl. repeat split.
    + destruct Hm as [-> | ->]; reflexivity.
    + intros u w0. apply find_user_records_call.
Qed.

Lemma blank_field_rejected_before_lookup_witness :
  (blank (py "   ") = true \/ blank (py "x") = true)
  /\ exists msg,
       contains SUB_EMPTY msg = true
       /\ login (rq "   " "x") (Online sample_table) (fresh zeros)
          = (inl (HTTPException 400 msg), fresh zeros).
Proof.
  split; [left; reflexivity|].
  destruct (blank_field_rejected_before_lookup (rq "   " "x")
              (Online sample_table) (fresh zeros) (or_introl eq_refl))
    as (_ & msg & _ & Hc & Hl & _).
  exists msg. split; [exact Hc | exact Hl].
Defined.

(** [execute] always returns an envelope, built by [ok] or by [fail]. *)
Lemma execute_shape (request : LoginRequest.t) (db : AsyncSession) (w : World) :
  exists result w',
    AuthService.execute db request w = (inr result, w')
    /\ ((exists response md, result = ServiceResult.ok response md)
        \/ (exists msg kind,
              result = ServiceResult.fail msg
                         (failure_metadata kind (LoginRequest.username request))
              /\ In msg failure_messages
              /\ (kind = py "ValidationException"
                  \/ kind = py "NotFoundException"
                  \/ kind = py "ValidationError"
                  \/ exists t, db = Broken kind t))).
Proof.
  rewrite execute_eq. unfold execute_result, failure_messages.
  destruct (blank (LoginRequest.username request)).
  { eexists _, _. split; [reflexivity|]. right. eexists _, _.
    split; [reflexivity|]. simpl. auto. }
  destruct (blank (LoginRequest.password request)).
  { eexists _, _. split; [reflexivity|]. right. eexists _, _.
    split; [reflexivity|]. simpl. auto. }
  destruct db as [T_USER | c t].
  - destruct (select_user T_USER _) as [|r rest].
    + eexists _, _. split; [reflexivity|]. right. eexists _, _.
      split; [reflexivity|]. simpl. auto 6.
    + destruct (UserRecord.create _ _ _) as [e | record].
      { eexists _, _. split; [reflexivity|]. right. eexists _, _.
        split; [reflexivity|]. simpl. auto 7. }
      destruct (str_eqb _ _).
      * eexists _, _. split; [reflexivity|]. left. eexists _, _. reflexivity.
      * eexists _, _. split; [reflexivity|]. right. eexists _, _.
        split; [reflexivity|]. simpl. auto.
  - eexists _, _. split; [reflexivity|]. right. eexists _, _.
    split; [reflexivity|]. simpl. split; [auto 6|].
    right. right. right. now exists t.
Qed.

Lemma failure_messages_truthy (msg : str) :
  In msg failure_messages -> truthy msg = true.
Proof.
  unfold failure_messages. simpl.
  intros [<- | [<- | [<- | [<- | [<- | []]]]]]; reflexivity.
Qed.

Lemma status_by_message_range (msg : str) :
  status_by_message msg = 401 \/ status_by_message msg = 400
  \/ status_by_message msg = 500.
Proof.
  unfold status_by_message.
  destruct (_ || _); [now left|].
  destruct (contains SUB_EMPTY msg); auto.
Qed.

(** C4: for a failure envelope of [execute] the router raises the status
    that substring matching on the envelope's message selects (401 for
    the three credential phrases, else 400 for the empty-string phrase,
    else 500) with that message as detail; the status is one of 401, 400
    and 500, and each of the three does occur. *)
Theorem failure_status_chosen_by_message_substring :
  (forall request db w result w',
      AuthService.execute db request w = (inr result, w') ->
      ServiceResult.success result = false ->
      exists msg,
        ServiceResult.error result = Some msg
        /\ login request db w
           = (inl (HTTPException (status_by_message msg) msg), w')
        /\ (status_by_message msg = 401 \/ status_by_message msg = 400
            \/ status_by_message msg = 500))
  /\ http_status (fst (login (rq "ghost" "x") (Online sample_table)
                         (fresh zeros))) = 401
  /\ http_status (fst (login (rq " " "x") (Online sample_table)
                         (fresh zeros))) = 400
  /\ http_status (fst (login (rq "ghost" "x") (Broken (py "DatabaseError") [])
                         (fresh zeros))) = 500.
Proof.
  split; [|repeat split; reflexivity].
  intros request db w result w' He Hs.
  destruct (execute_shape request db w)
    as (result0 & w0 & He0 & [(resp & md & ->) | (msg & kind & -> & Hin & _)]);
    rewrite He in He0; injection He0 as -> ->.
  - discriminate Hs.
  - exists msg. split; [reflexivity|]. split.
    + apply (login_of_failure _ _ _ _ _ _ He).
      now apply failure_messages_truthy.
    + apply status_by_message_range.
Qed.

Lemma failure_status_chosen_by_message_substring_witness :
  let request := rq "user001" "wrong" in
  let db := Online sample_table in
  let result :=
    ServiceResult.fail MSG_PASSWORD_MISMATCH
      (failure_metadata (py "ValidationException") (py "user001")) in
  AuthService.execute db request (fresh zeros)
    = (inr result, queried (fresh zeros) (py "user001"))
  /\ ServiceResult.success result = false
  /\ exists msg,
       ServiceResult.error result = Some msg
       /\ login request db (fresh zeros)
          = (inl (HTTPException (status_by_message msg) msg),
             queried (fresh zeros) (py "user001"))
       /\ (status_by_message msg = 401 \/ status_by_message msg = 400
           \/ status_by_message msg = 500).
Proof.
  cbv zeta. split; [reflexivity|]. split; [reflexivity|].
  apply (proj1 failure_status_chosen_by_message_substring
           (rq "user001" "wrong") (Online sample_table) (fresh zeros));
    reflexivity.
Defined.

(** C5, as the code has it: when no row of the table has the username as
    its [USER_ID], the repository returns [None] without raising; and when
    the request also passes validation, [execute] returns the failure
    envelope with the vague credentials message, which the router answers
    with 401. *)
Theorem unknown_user_rejected_with_vague_message
    (T_USER : list Row) (request : LoginRequest.t) (w : World) :
  (forall r, In r T_USER -> USER_ID r <> Text (LoginRequest.username request)) ->
  AuthRepository.find_user_by_username (Online T_USER)
    (LoginRequest.username request) w
  = (inr None, queried w (LoginRequest.username request))
  /\ (blank (LoginRequest.username request) = false ->
      blank (LoginRequest.password request) = false ->
      AuthService.execute (Online T_USER) request w =
      (inr (ServiceResult.fail MSG_BAD_CREDENTIALS
              (failure_metadata (py "NotFoundException")
                 (LoginRequest.username request))),
       queried w (LoginRequest.username request))
      /\ login request (Online T_USER) w =
         (inl (HTTPException 401 MSG_BAD_CREDENTIALS),
          queried w (LoginRequest.username request))).
Proof.
  intros Hno. pose proof (select_user_none T_USER _ Hno) as Hs. split.
  - rewrite find_user_by_username_eq, Hs. reflexivity.
  - intros Hu Hp. split.
    + now apply execute_not_found.
    + now apply login_not_found.
Qed.

Lemma unknown_user_rejected_with_vague_message_witness :
  (forall r, In r sample_table -> USER_ID r <> Text (py "ghost"))
  /\ blank (py "ghost") = false
  /\ blank (py "x") = false
  /\ fst (AuthRepository.find_user_by_username (Online sample_table)
            (py "ghost") (fresh zeros)) = inr None
  /\ fst (login (rq "ghost" "x") (Online sample_table) (fresh zeros))
     = inl (HTTPException 401 MSG_BAD_CREDENTIALS).
Proof.
  assert (Hno : forall r,
             In r sample_table -> USER_ID r <> Text (py "ghost")).
  { intros r [<- | []]. discriminate. }
  split; [exact Hno|]. split; [reflexivity|]. split; [reflexivity|].
  destruct (unknown_user_rejected_with_vague_message sample_table
              (rq "ghost" "x") (fresh zeros) Hno) as [Hf Hrest].
  destruct (Hrest eq_refl eq_refl) as [_ Hl].
  split.
  - exact (f_equal fst Hf).
  - exact (f_equal fst Hl).
Defined.

(** C5 as stated fails: the username ghost names no stored record, yet
    with a whitespace-only password the request is answered with 400 and
    the empty-password message, not with 401 and the vague message. *)
Lemma unknown_user_with_blank_password_gets_400 :
  (forall r, In r sample_table -> USER_ID r <> Text (py "ghost"))
  /\ LoginRequest.well_formed (rq "ghost" " ") = true
  /\ login (rq "ghost" " ") (Online sample_table) (fresh zeros)
     = (inl (HTTPException 400 MSG_EMPTY_PASSWORD), fresh zeros)
  /\ fst (login (rq "ghost" " ") (Online sample_table) (fresh zeros))
     <> inl (HTTPException 401 MSG_BAD_CREDENTIALS).
Proof.
  split; [intros r [<- | []]; discriminate|].
  split; [reflexivity|]. split; [reflexivity|]. discriminate.
Qed.

(** C7: an exception raised inside the [try] block of [execute] is turned
    into a failure envelope (a validation error keeps its message, a
    not-found error gets the vague message, anything else the generic
    message, which the router answers with 500); a failing database makes
    the repository raise the driver's error rather than return [None];
    [execute] itself never raises, and [login] either returns or raises
    an [HTTPException]. *)
Theorem exceptions_become_failure_envelopes
    (request : LoginRequest.t) (db : AsyncSession) (w : World) :
  (forall e w1,
      AuthService.execute_try db request w = (inl e, w1) ->
      exists msg,
        AuthService.execute db request w =
        (inr (ServiceResult.fail msg
                (failure_metadata (type_name e) (LoginRequest.username request))),
         w1)
        /\ match e with
           | ValidationException m => msg = m
           | NotFoundException _ => msg = MSG_BAD_CREDENTIALS
           | _ =>
               msg = MSG_LOGIN_ERROR
               /\ login request db w =
                  (inl (HTTPException 500 MSG_LOGIN_ERROR), w1)
           end)
  /\ (forall c t u,
        db = Broken c t ->
        fst (AuthRepository.find_user_by_username db u w) = inl (OtherError c t))
  /\ (exists result w1, AuthService.execute db request w = (inr result, w1))
  /\ (exists w1,
        (exists response, login request db w = (inr response, w1))
        \/ (exists code detail,
              login request db w = (inl (HTTPException code detail), w1))).
Proof.
  split; [|split; [|split]].
  - intros e w1 Hb.
    assert (He : AuthService.execute db request w
                 = AuthService.handle_error e request w1).
    { unfold AuthService.execute, try_except. rewrite Hb.
      destruct e; reflexivity. }
    destruct e as [m | m | code detail | c t];
      (eexists; split; [rewrite He; reflexivity|]); try reflexivity.
    + split; [reflexivity|].
      now rewrite (login_of_failure _ _ _ _ _ _ He).
    + split; [reflexivity|].
      now rewrite (login_of_failure _ _ _ _ _ _ He).
  - intros c t u ->. rewrite find_user_by_username_eq. reflexivity.
  - destruct (execute_shape request db w) as (result & w1 & He & _).
    now exists result, w1.
  - destruct (execute_shape request db w)
      as (result & w1 & He & [(resp & md & ->) | (msg & kind & -> & Hin & _)]).
    + exists w1. left. exists (Some resp). rewrite login_eq, He. reflexivity.
    + exists w1. right. eexists _, _.
      apply (login_of_failure _ _ _ _ _ _ He).
      now apply failure_messages_truthy.
Qed.

Lemma exceptions_become_failure_envelopes_witness :
  let request := rq "user001" "password123" in
  let db := Broken (py "DatabaseError") (py "ORA-03113") in
  let e := OtherError (py "DatabaseError") (py "ORA-03113") in
  let w1 := queried (fresh zeros) (py "user001") in
  AuthService.execute_try db request (fresh zeros) = (inl e, w1)
  /\ exists msg,
       AuthService.execute db request (fresh zeros) =
       (inr (ServiceResult.fail msg
               (failure_metadata (py "DatabaseError") (py "user001"))), w1)
       /\ msg = MSG_LOGIN_ERROR
       /\ login request db (fresh zeros) =
          (inl (HTTPException 500 MSG_LOGIN_ERROR), w1).
Proof.
  cbv zeta. split; [reflexivity|].
  exact (proj1 (exceptions_become_failure_envelopes
                  (rq "user001" "password123")
                  (Broken (py "DatabaseError") (py "ORA-03113")) (fresh zeros))
           (OtherError (py "DatabaseError") (py "ORA-03113"))
           (queried (fresh zeros) (py "user001")) eq_refl).
Defined.

(** C8: the envelope [execute] returns is either tagged success with a
    payload and no error message, or tagged failure with an error message
    and no payload. *)
Theorem execute_envelope_invariant
    (request : LoginRequest.t) (db : AsyncSession) (w : World) :
  exists result w',
    AuthService.execute db request w = (inr result, w')
    /\ ((ServiceResult.success result = true
         /\ (exists response, ServiceResult.data result = Some response)
         /\ ServiceResult.error result = None)
        \/ (ServiceResult.success result = false
            /\ ServiceResult.data result = None
            /\ exists msg, ServiceResult.error result = Some msg)).
Proof.
  destruct (execute_shape request db w)
    as (result & w' & He & [(resp & md & ->) | (msg & kind & -> & _)]);
    eexists _, w'; (split; [exact He|]).
  - left. simpl. eauto.
  - right. simpl. eauto.
Qed.

(** C9: a failure envelope is [fail] of one of the five fixed texts, with
    no payload, and its metadata is exactly the error type name and the
    username, so nothing in it is taken from the password.  The type name
    is that of one of the two application exceptions, of pydantic's
    [ValidationError] for a row that is not all text, or of the failing
    session's error. *)
Theorem failure_envelope_is_password_free
    (request : LoginRequest.t) (db : AsyncSession) (w w' : World)
    (result : ServiceResult.t LoginResponse.t) :
  AuthService.execute db request w = (inr result, w') ->
  ServiceResult.success result = false ->
  exists msg kind,
    result = ServiceResult.Build false None (Some msg)
               [(py "error_type", kind);
                (py "username", LoginRequest.username request)]
    /\ In msg [MSG_EMPTY_USERNAME; MSG_EMPTY_PASSWORD; MSG_PASSWORD_MISMATCH;
               MSG_BAD_CREDENTIALS; MSG_LOGIN_ERROR]
    /\ (kind = py "ValidationException"
        \/ kind = py "NotFoundException"
        \/ kind = py "ValidationError"
        \/ exists t, db = Broken kind t).
Proof.
  intros He Hs.
  destruct (execute_shape request db w)
    as (result0 & w0 & He0 & [(resp & md & ->) | (msg & kind & -> & Hin & Hk)]);
    rewrite He in He0; injection He0 as -> ->.
  - discriminate Hs.
  - exists msg, kind. split; [reflexivity|]. split; [exact Hin | exact Hk].
Qed.

Lemma failure_envelope_is_password_free_witness :
  let request := rq "user001" "hunter2" in
  let result :=
    ServiceResult.fail MSG_PASSWORD_MISMATCH
      (failure_metadata (py "ValidationException") (py "user001")) in
  AuthService.execute (Online sample_table) request (fresh zeros)
    = (inr result, queried (fresh zeros) (py "user001"))
  /\ ServiceResult.success result = false
  /\ exists msg kind,
       result = ServiceResult.Build false None (Some msg)
                  [(py "error_type", kind); (py "username", py "user001")]
       /\ In msg [MSG_EMPTY_USERNAME; MSG_EMPTY_PASSWORD; MSG_PASSWORD_MISMATCH;
                  MSG_BAD_CREDENTIALS; MSG_LOGIN_ERROR]
       /\ (kind = py "ValidationException"
           \/ kind = py "NotFoundException"
           \/ kind = py "ValidationError"
           \/ exists t, Online sample_table = Broken kind t).
Proof.
  cbv zeta. split; [reflexivity|]. split; [reflexivity|].
  exact (failure_envelope_is_password_free (rq "user001" "hunter2")
           (Online sample_table) (fresh zeros) _ _ eq_refl eq_refl).
Defined.

(** C10, as the code has it: when neither field is blank, validation
    passes and the store is asked for exactly the submitted username, once
    and untrimmed; the record the repository returns comes from a row
    whose [USER_ID] equals that string, and when no row does it returns
    [None]. *)
Theorem username_reaches_lookup_verbatim
    (request : LoginRequest.t) (db : AsyncSession) (w : World) :
  blank (LoginRequest.username request) = false ->
  blank (LoginRequest.password request) = false ->
  AuthService.validate_request request w = (inr tt, w)
  /\ db_calls (snd (AuthService.execute db request w))
     = db_calls w ++ [LoginRequest.username request]
  /\ db_calls (snd (login request db w))
     = db_calls w ++ [LoginRequest.username request]
  /\ (forall T_USER record,
        fst (AuthRepository.find_user_by_username (Online T_USER)
               (LoginRequest.username request) w) = inr (Some record) ->
        UserRecord.user_id record = LoginRequest.username request
        /\ exists r,
             In r T_USER /\ USER_ID r = Text (LoginRequest.username request)
             /\ PASSWORD r = Text (UserRecord.password record)
             /\ USER_NAME r = Text (UserRecord.user_name record))
  /\ (forall T_USER,
        (forall r, In r T_USER -> USER_ID r <> Text (LoginRequest.username request)) ->
        fst (AuthRepository.find_user_by_username (Online T_USER)
               (LoginRequest.username request) w) = inr None).
Proof.
  intros Hu Hp.
  assert (Hcalls : db_calls (snd (AuthService.execute db request w))
                   = db_calls w ++ [LoginRequest.username request]).
  { rewrite execute_eq. unfold execute_result. rewrite Hu, Hp.
    destruct db as [T_USER | c t]; [|reflexivity].
    destruct (select_user T_USER _) as [|r rest]; [reflexivity|].
    destruct (UserRecord.create _ _ _) as [e | record]; [reflexivity|].
    destruct (str_eqb _ _); reflexivity. }
  split; [|split; [|split; [|split]]].
  - rewrite validate_request_eq. now rewrite Hu, Hp.
  - exact Hcalls.
  - rewrite login_eq.
    destruct (AuthService.execute db request w) as [[e | result] w1];
      [exact Hcalls|].
    destruct (ServiceResult.success result); exact Hcalls.
  - intros T_USER record. rewrite find_user_by_username_eq.
    destruct (fetchone (select_user T_USER _)) as [r|] eqn:Hf;
      [|discriminate].
    destruct (fetchone_sound _ _ _ Hf) as [Hin Hid].
    destruct (UserRecord.create _ _ _) as [e | record0] eqn:Hc;
      [discriminate|].
    cbn [fst]. intros [= <-].
    apply create_record in Hc as (Hi & Hpw & Hn).
    split; [congruence|]. exists r. repeat split; assumption.
  - intros T_USER Hno. rewrite find_user_by_username_eq.
    now rewrite (select_user_none T_USER _ Hno).
Qed.

Lemma username_reaches_lookup_verbatim_witness :
  let request := rq " user001 " "password123" in
  blank (py " user001 ") = false
  /\ blank (py "password123") = false
  /\ AuthService.validate_request request (fresh zeros) = (inr tt, fresh zeros)
  /\ db_calls (snd (login request (Online sample_table) (fresh zeros)))
     = [py " user001 "]
  /\ fst (AuthRepository.find_user_by_username (Online sample_table)
            (py " user001 ") (fresh zeros)) = inr None.
Proof.
  cbv zeta. split; [reflexivity|]. split; [reflexivity|].
  destruct (username_reaches_lookup_verbatim (rq " user001 " "password123")
              (Online sample_table) (fresh zeros) eq_refl eq_refl)
    as (Hv & _ & Hl & _ & Hnone).
  split; [exact Hv|]. split; [exact Hl|].
  apply Hnone. intros r [<- | []]. discriminate.
Defined.

(** C10 as stated fails: the username " user001 " has non-whitespace
    characters, yet with a whitespace-only password validation does not
    pass and nothing is sent to the store. *)
Lemma padded_username_with_blank_password_never_looked_up :
  let request := rq " user001 " " " in
  blank (LoginRequest.username request) = false
  /\ LoginRequest.well_formed request = true
  /\ AuthService.validate_request request (fresh zeros)
     = (inl (ValidationException MSG_EMPTY_PASSWORD), fresh zeros)
  /\ db_calls (snd (AuthService.execute
                      (Online [text_row (py " user001 ") (py " ") (py "홍길동")])
                      request (fresh zeros))) = []
  /\ fst (login request
            (Online [text_row (py " user001 ") (py " ") (py "홍길동")])
            (fresh zeros))
     = inl (HTTPException 400 MSG_EMPTY_PASSWORD).
Proof.
  cbv zeta. repeat split; reflexivity.
Qed.

(** C6, as the code has it: a token is the prefix "temp_token_" followed by
    the unpadded URL-safe base64 text of the next 32 bytes of the random
    source, 43 characters from the URL-safe alphabet; the call consumes
    those 32 bytes and sends nothing to the store; and two calls return
    the same token exactly when they drew the same 32 bytes. *)
Theorem temp_token_format_and_collisions (w : World) :
  exists body w1,
    AuthService._generate_temp_token w = (inr (TOKEN_PREFIX ++ body), w1)
    /\ body = rstrip_char PAD (urlsafe_b64encode (draw 32 w))
    /\ length (draw 32 w) = 32%nat
    /\ length body = 43%nat
    /\ forallb is_urlsafe body = true
    /\ (forall i, entropy w1 i = entropy w (32 + i)%nat)
    /\ db_calls w1 = db_calls w
    /\ (forall w',
          fst (AuthService._generate_temp_token w')
          = fst (AuthService._generate_temp_token w)
          <-> draw 32 w' = draw 32 w).
Proof.
  eexists _, _. split; [apply generate_temp_token_eq|].
  fold (draw 32 w). split; [reflexivity|]. split; [reflexivity|].
  rewrite rstrip_encoding. split.
  { rewrite unpadded_length. reflexivity. }
  split; [apply unpadded_urlsafe|]. split; [reflexivity|].
  split; [reflexivity|].
  intros w'. rewrite !generate_temp_token_eq. cbn [fst].
  fold (draw 32 w) (draw 32 w'). rewrite !rstrip_encoding. split.
  - intros E. apply (f_equal (fun o => match o with
                                       | inr t => t
                                       | inl _ => @nil N
                                       end)) in E.
    apply app_inv_head in E. now apply unpadded_inj.
  - now intros ->.
Qed.

(** C6 as stated fails: on a random source that repeats itself, two
    successive calls return the same token. *)
Lemma repeated_entropy_repeats_token :
  exists token w1 w2,
    AuthService._generate_temp_token (fresh zeros) = (inr token, w1)
    /\ AuthService._generate_temp_token w1 = (inr token, w2).
Proof.
  eexists _, _, _. split; reflexivity.
Qed.

(** ** The router's answer, case by case *)

Lemma login_closed (request : LoginRequest.t) (db : AsyncSession) (w : World) :
  login request db w =
  let username := LoginRequest.username request in
  let password := LoginRequest.password request in
  if blank username then (inl (HTTPException 400 MSG_EMPTY_USERNAME), w)
  else if blank password then (inl (HTTPException 400 MSG_EMPTY_PASSWORD), w)
  else
    match db with
    | Broken c t =>
        (inl (HTTPException 500 MSG_LOGIN_ERROR), queried w username)
    | Online T_USER =>
        match fetchone (select_user T_USER username) with
        | None => (inl (HTTPException 401 MSG_BAD_CREDENTIALS), queried w username)
        | Some r =>
            match UserRecord.create (USER_ID r) (PASSWORD r) (USER_NAME r) with
            | inl _ =>
                (inl (HTTPException 500 MSG_LOGIN_ERROR), queried w username)
            | inr record =>
                if str_eqb password (UserRecord.password record) then
                  (inr (Some (LoginResponse.Build (UserRecord.user_id record)
                                (UserRecord.user_name record)
                                (TOKEN_PREFIX
                                   ++ rstrip_char PAD
                                        (urlsafe_b64encode (draw 32 w)))
                                MSG_LOGIN_OK)),
                   mkWorld (fun i => entropy w (32 + i)%nat)
                     (db_calls w ++ [username]))
                else
                  (inl (HTTPException 401 MSG_PASSWORD_MISMATCH),
                   queried w username)
            end
        end
    end.
Proof.
  rewrite login_eq, execute_eq. unfold execute_result. cbv zeta.
  destruct (blank (LoginRequest.username request)); [reflexivity|].
  destruct (blank (LoginRequest.password request)); [reflexivity|].
  destruct db as [T_USER | c t]; [|reflexivity].
  destruct (select_user T_USER _) as [|r rest]; [reflexivity|].
  cbn [fetchone].
  destruct (UserRecord.create _ _ _) as [e | record]; [reflexivity|].
  destruct (str_eqb _ _); reflexivity.
Qed.

(** Case analysis on the tests [login] goes through. *)
Ltac login_cases request db :=
  rewrite ?login_closed; cbv zeta;
  destruct (blank (LoginRequest.username request)) eqn:Hu;
  [| destruct (blank (LoginRequest.password request)) eqn:Hp;
     [| destruct db as [T_USER | c t];
        [ destruct (fetchone
                      (select_user T_USER (LoginRequest.username request)))
            as [r|] eqn:Hf;
          [ destruct (UserRecord.create (USER_ID r) (PASSWORD r) (USER_NAME r))
              as [e0 | record] eqn:Hc;
            [| destruct (str_eqb (LoginRequest.password request)
                           (UserRecord.password record)) eqn:Hpw ]
          | ]
        | ] ] ].


Lemma select_user_app (a b : list Row) (u : str) :
  select_user (a ++ b) u = select_user a u ++ select_user b u.
Proof. apply filter_app. Qed.



(** ** Further properties of the router *)

(** X1: whatever the session and the world, the answer is 400 exactly when
    the username or the password is empty or whitespace-only. *)
Theorem login_400_iff_blank_field
    (request : LoginRequest.t) (db : AsyncSession) (w : World) :
  http_status (fst (login request db w)) = 400
  <-> blank (LoginRequest.username request) = true
      \/ blank (LoginRequest.password request) = true.
Proof.
  login_cases request db; cbn; split; intros H; auto; try discriminate;
    destruct H; discriminate.
Qed.





(** X5: only the first row the query returns for a username counts: rows of
    other users before it and any rows after it, the same user's
    duplicates included, change nothing in the answer. *)
Theorem login_first_row_decides
    (request : LoginRequest.t) (before after : list Row) (r : Row) (w : World) :
  (forall x, In x before -> USER_ID x <> Text (LoginRequest.username request)) ->
  USER_ID r = Text (LoginRequest.username request) ->
  login request (Online (before ++ r :: after)) w
  = login request (Online [r]) w.
Proof.
  intros Hb Hr.
  assert (Hone : cell_equals (USER_ID r) (LoginRequest.username request) = true)
    by now apply cell_equals_eq.
  assert (Hs : fetchone (select_user (before ++ r :: after)
                           (LoginRequest.username request)) = Some r).
  { rewrite select_user_app, (select_user_none before _ Hb). simpl.
    now rewrite Hone. }
  assert (Hs1 : fetchone (select_user [r] (LoginRequest.username request))
                = Some r).
  { unfold select_user. simpl. now rewrite Hone. }
  rewrite !login_closed. cbv zeta. now rewrite Hs, Hs1.
Qed.

Lemma login_first_row_decides_witness :
  let stale := text_row (py "user001") (py "old-password") (py "홍길동") in
  let current := text_row (py "user001") (py "password123") (py "홍길동") in
  (forall x, In x [] -> USER_ID x <> Text (py "user001"))
  /\ USER_ID stale = Text (py "user001")
  /\ login (rq "user001" "password123") (Online ([] ++ stale :: [current]))
       (fresh zeros)
     = login (rq "user001" "password123") (Online [stale]) (fresh zeros)
  /\ fst (login (rq "user001" "password123") (Online [stale]) (fresh zeros))
     = inl (HTTPException 401 MSG_PASSWORD_MISMATCH).
Proof.
  cbv zeta. split; [intros x []|]. split; [reflexivity|].
  split; [|reflexivity].
  apply (login_first_row_decides (rq "user001" "password123") []
           [text_row (py "user001") (py "password123") (py "홍길동")]
           (text_row (py "user001") (py "old-password") (py "홍길동"))
           (fresh zeros)).
  - intros x [].
  - reflexivity.
Defined.

(** X6: whatever [login] raises is an [HTTPException] with one of five
    fixed pairs of status and detail; the detail is a constant text, built
    neither from the username, which the internal not-found message
    embeds, nor from the text of a database or record error. *)
Theorem login_error_is_one_of_five
    (request : LoginRequest.t) (db : AsyncSession) (w : World) (e : Exception) :
  fst (login request db w) = inl e ->
  In e [HTTPException 400 MSG_EMPTY_USERNAME;
        HTTPException 400 MSG_EMPTY_PASSWORD;
        HTTPException 401 MSG_PASSWORD_MISMATCH;
        HTTPException 401 MSG_BAD_CREDENTIALS;
        HTTPException 500 MSG_LOGIN_ERROR].
Proof.
  login_cases request db; cbn [fst]; intros [= <-]; simpl; auto 6.
Qed.

Lemma login_error_is_one_of_five_witness :
  let db := Broken (py "DatabaseError") (py "ORA-12541: no listener") in
  fst (login (rq "user001" "password123") db (fresh zeros))
    = inl (HTTPException 500 MSG_LOGIN_ERROR)
  /\ In (HTTPException 500 MSG_LOGIN_ERROR)
       [HTTPException 400 MSG_EMPTY_USERNAME;
        HTTPException 400 MSG_EMPTY_PASSWORD;
        HTTPException 401 MSG_PASSWORD_MISMATCH;
        HTTPException 401 MSG_BAD_CREDENTIALS;
        HTTPException 500 MSG_LOGIN_ERROR].
Proof.
  cbv zeta. split; [reflexivity|].
  exact (login_error_is_one_of_five (rq "user001" "password123")
           (Broken (py "DatabaseError") (py "ORA-12541: no listener"))
           (fresh zeros) _ eq_refl).
Defined.

(** X7: random bytes are drawn only for a successful login: a request that
    is refused leaves the random source where it was, and one that
    succeeds advances it by exactly 32 bytes. *)
Theorem login_draws_entropy_only_on_success
    (request : LoginRequest.t) (db : AsyncSession) (w : World) :
  match login request db w with
  | (inr _, w') => forall i, entropy w' i = entropy w (32 + i)%nat
  | (inl _, w') => entropy w' = entropy w
  end.
Proof.
  login_cases request db; reflexivity.
Qed.

(** X8: the answer does not depend on what happened before: in any two
    worlds the same request to the same session gets the same status, the
    same exception when it is refused, and a response that can differ
    only in its token when it is accepted. *)
Theorem login_is_stateless
    (request : LoginRequest.t) (db : AsyncSession) (w1 w2 : World) :
  http_status (fst (login request db w1))
  = http_status (fst (login request db w2))
  /\ (forall e,
        fst (login request db w1) = inl e -> fst (login request db w2) = inl e)
  /\ (forall r1,
        fst (login request db w1) = inr (Some r1) ->
        exists r2,
          fst (login request db w2) = inr (Some r2)
          /\ LoginResponse.user_id r2 = LoginResponse.user_id r1
          /\ LoginResponse.user_name r2 = LoginResponse.user_name r1
          /\ LoginResponse.message r2 = LoginResponse.message r1).
Proof.
  login_cases request db; cbn [fst];
    (split; [reflexivity|]); (split; [intros e H; exact H || discriminate H|]);
    intros r1 H; try discriminate H.
  injection H as <-. eexists. split; [reflexivity|]. now repeat split.
Qed.

Lemma login_is_stateless_witness :
  let w1 := fresh zeros in
  let w2 := mkWorld (fun _ => xff) [py "ghost"; py "user001"] in
  fst (login (rq "user001" "wrong") (Online sample_table) w1)
    = inl (HTTPException 401 MSG_PASSWORD_MISMATCH)
  /\ fst (login (rq "user001" "wrong") (Online sample_table) w2)
     = inl (HTTPException 401 MSG_PASSWORD_MISMATCH).
Proof.
  cbv zeta. split; [reflexivity|].
  exact (proj1 (proj2 (login_is_stateless (rq "user001" "wrong")
                         (Online sample_table) (fresh zeros)
                         (mkWorld (fun _ => xff) [py "ghost"; py "user001"])))
           _ eq_refl).
Defined.



(** X10: of the two validation messages the username's comes first: the
    400 detail is the empty-username text exactly when the username is
    blank, also when the password is blank too, and the empty-password
    text exactly when only the password is blank. *)
Theorem login_reports_blank_username_first
    (request : LoginRequest.t) (db : AsyncSession) (w : World) :
  (fst (login request db w) = inl (HTTPException 400 MSG_EMPTY_USERNAME)
   <-> blank (LoginRequest.username request) = true)
  /\ (fst (login request db w) = inl (HTTPException 400 MSG_EMPTY_PASSWORD)
      <-> blank (LoginRequest.username request) = false
          /\ blank (LoginRequest.password request) = true).
Proof.
  login_cases request db; cbn [fst]; split; split; intros H;
    try reflexivity; try discriminate H; try (now split);
    destruct H; discriminate.
Qed.

(** X11: a request sends at most one statement to the database: none when
    a field is blank, otherwise exactly one, whose parameter is the
    submitted username, whether the login then succeeds, is refused or
    the session fails. *)
Theorem login_sends_at_most_one_lookup
    (request : LoginRequest.t) (db : AsyncSession) (w : World) :
  db_calls (snd (login request db w))
  = db_calls w
      ++ (if blank (LoginRequest.username request)
             || blank (LoginRequest.password request)
          then []
          else [LoginRequest.username request]).
Proof.
  login_cases request db; cbn; now rewrite ?app_nil_r.
Qed.
